(** * A power switch driving a switchable device

    Shallow embedding of [example/after-using-arjan-fanboy.py]: the
    [Switchable] protocol, the [LightBulb] device, the
    [ElectricPowerSwitch] controller with its [press] method, and [main].

    Python objects live in a heap indexed by references (object
    identities); standard output is the list of lines written by [print];
    a call log records every method invocation (receiver, method) in the
    order in which the calls are made.  The log is ghost state: the program
    never reads it. *)

From stdpp Require Import base option list gmap strings.

Open Scope string_scope.
Open Scope list_scope.

(** ** Data model *)

(** References to heap objects. *)
Abbreviation ref := positive (only parsing).

(** The two methods of the [Switchable] protocol. *)
Inductive switchable_method := TurnOn | TurnOff.

(** A logged call: [r.turn_on()] or [r.turn_off()] on a device, or
    [r.press()] on a controller. *)
Inductive call :=
  | DeviceCall (r : ref) (m : switchable_method)
  | PressCall (r : ref).

(** [class Switchable(Protocol)]: any type with the two methods.  A method
    receives the object and gives back the (possibly mutated) object and
    the lines it writes to standard output; it returns [None] in Python, so
    there is no result component.  The program raises no exception of its
    own, so a method body is a total function. *)
Class Switchable (D : Type) := {
  turn_on : D → D * list string;
  turn_off : D → D * list string
}.

(** [print(text)] writes one line. *)
Definition print (text : string) : list string := [text].

(** [class LightBulb]: no attributes. *)
Inductive LightBulb := LightBulb_obj.

Definition LightBulb_turn_on (self : LightBulb) : LightBulb * list string :=
  (self, print "LightBulb: turned on...").

Definition LightBulb_turn_off (self : LightBulb) : LightBulb * list string :=
  (self, print "LightBulb: turned off...").

#[global] Instance LightBulb_Switchable : Switchable LightBulb :=
  {| turn_on := LightBulb_turn_on; turn_off := LightBulb_turn_off |}.

(** [@dataclass(slots=True) class ElectricPowerSwitch]: exactly two
    fields. *)
Record ElectricPowerSwitch := mkSwitch {
  device : ref;
  is_on : bool
}.

(** What a reference can point to. *)
Inductive object (D : Type) :=
  | Device (d : D)
  | Switch (s : ElectricPowerSwitch).
Arguments Device {D} d.
Arguments Switch {D} s.

Record World (D : Type) := mkWorld {
  heap : gmap positive (object D);
  stdout : list string;
  calls : list call
}.
Arguments mkWorld {D} heap stdout calls.
Arguments heap {D} w.
Arguments stdout {D} w.
Arguments calls {D} w.

(** ** Computations: state passing, [None] for a raised [AttributeError]
    (the receiver found at a reference has not the attribute used). *)

Definition M (D A : Type) : Type := World D → option (A * World D).

Definition ret {D A} (a : A) : M D A := λ w, Some (a, w).

Definition bind {D A B} (m : M D A) (f : A → M D B) : M D B := λ w,
  match m w with
  | Some (a, w') => f a w'
  | None => None
  end.

Notation "'let*' x := m 'in' k" := (bind m (λ x, k))
  (at level 10, x name, m at level 200, k at level 200,
   format "'[v' 'let*'  x  :=  m  'in' '/' k ']'").

Section Controller.
Context {D : Type} `{!Switchable D}.

(** Object creation: the new object gets a reference not in use. *)
Definition new (o : object D) : M D ref := λ w,
  let r := fresh (dom (heap w)) in
  Some (r, mkWorld (<[r := o]> (heap w)) (stdout w) (calls w)).

(** The dataclass-generated constructor; [is_on] defaults to [False]. *)
Definition ElectricPowerSwitch_init (device : ref) (is_on : option bool)
  : M D ref :=
  new (Switch {| device := device; is_on := default false is_on |}).

Definition getattr_is_on (self : ref) : M D bool := λ w,
  match heap w !! self with
  | Some (Switch s) => Some (is_on s, w)
  | _ => None
  end.

Definition getattr_device (self : ref) : M D ref := λ w,
  match heap w !! self with
  | Some (Switch s) => Some (device s, w)
  | _ => None
  end.

Definition setattr_is_on (self : ref) (b : bool) : M D unit := λ w,
  match heap w !! self with
  | Some (Switch s) =>
      Some (tt, mkWorld (<[self := Switch {| device := device s; is_on := b |}]> (heap w))
                        (stdout w) (calls w))
  | _ => None
  end.

(** Ghost: note that a call is made. *)
Definition log (c : call) : M D unit := λ w,
  Some (tt, mkWorld (heap w) (stdout w) (calls w ++ [c])).

(** The body that a [Switchable] method name selects. *)
Definition method_body (m : switchable_method) : D → D * list string :=
  match m with
  | TurnOn => turn_on
  | TurnOff => turn_off
  end.

(** Dynamic dispatch of a [Switchable] method on the object at [r]: the
    body runs on the object found there, which is mutated in place. *)
Definition call_device (m : switchable_method) (r : ref) : M D unit :=
  let* _ := log (DeviceCall r m) in
  λ w,
  match heap w !! r with
  | Some (Device d) =>
      let '(d', out) := method_body m d in
      Some (tt, mkWorld (<[r := Device d']> (heap w)) (stdout w ++ out) (calls w))
  | _ => None
  end.

Definition call_turn_on : ref → M D unit := call_device TurnOn.
Definition call_turn_off : ref → M D unit := call_device TurnOff.

(** [ElectricPowerSwitch.press] *)
Definition press (self : ref) : M D unit :=
  let* _ := log (PressCall self) in
  let* on := getattr_is_on self in
  if on then
    let* dev := getattr_device self in
    let* _ := call_turn_off dev in
    setattr_is_on self false
  else
    let* dev := getattr_device self in
    let* _ := call_turn_on dev in
    setattr_is_on self true.

(** [n] consecutive calls of [press] on the same controller. *)
Fixpoint press_n (n : nat) (self : ref) : M D unit :=
  match n with
  | O => ret tt
  | S n' => let* _ := press self in press_n n' self
  end.

(** A sequence of [Switchable] calls on the same device. *)
Fixpoint call_all (ms : list switchable_method) (r : ref) : M D unit :=
  match ms with
  | [] => ret tt
  | m :: ms' => let* _ := call_device m r in call_all ms' r
  end.

End Controller.

(** ** Observations used in the statements *)

(** The methods invoked on device [d] in a log, in order. *)
Definition calls_on (d : ref) (l : list call) : list switchable_method :=
  omap (λ c, match c with
             | DeviceCall r m => if decide (r = d) then Some m else None
             | PressCall _ => None
             end) l.

(** The method that [press] calls when the flag is [b]. *)
Definition pressed_method (b : bool) : switchable_method :=
  if b then TurnOff else TurnOn.

(** The calls made, and the lines written, between two worlds of a run. *)
Definition made {D} (w w' : World D) : list call :=
  drop (length (calls w)) (calls w').

Definition written {D} (w w' : World D) : list string :=
  drop (length (stdout w)) (stdout w').

(** The receivers of the [press()] calls in a log, in order. *)
Definition press_calls (l : list call) : list ref :=
  omap (λ c, match c with
             | PressCall r => Some r
             | DeviceCall _ _ => None
             end) l.

(** How often a line occurs in some output. *)
Definition occurrences (text : string) (out : list string) : nat :=
  length (filter (λ l, l = text) out).

(** The line a [LightBulb] prints in each of its methods. *)
Definition LightBulb_notification (m : switchable_method) : string :=
  match m with
  | TurnOn => "LightBulb: turned on..."
  | TurnOff => "LightBulb: turned off..."
  end.

(** [main] *)
Definition main : M LightBulb unit :=
  let* bulb := new (Device LightBulb_obj) in
  let* switch := ElectricPowerSwitch_init bulb None in
  let* _ := press switch in
  press switch.

(** The world in which the script starts. *)
Definition initial_world {D} : World D := mkWorld ∅ [] [].

(** A world with a bulb at reference 1 and a controller at reference 2
    bound to it, with the given flag. *)
Definition bulb_world (b : bool) : World LightBulb :=
  mkWorld (<[2%positive := Switch (mkSwitch 1 b)]>
             (<[1%positive := Device LightBulb_obj]> ∅)) [] [].

(** The methods that [n] consecutive presses call on the device, starting
    from flag [b]: alternately one and the other. *)
Fixpoint alternate (b : bool) (n : nat) : list switchable_method :=
  match n with
  | O => []
  | S n' => pressed_method b :: alternate (negb b) n'
  end.

(** The calls that [n] consecutive presses of controller [self], bound to
    [d] and starting from flag [b], add to the log. *)
Fixpoint press_log (self d : ref) (b : bool) (n : nat) : list call :=
  match n with
  | O => []
  | S n' =>
      PressCall self :: DeviceCall d (pressed_method b)
        :: press_log self d (negb b) n'
  end.

(** A world with a bulb at reference 1 and two controllers, at references
    2 and 3, both bound to it, with the given flags. *)
Definition shared_world (b2 b3 : bool) : World LightBulb :=
  mkWorld (<[3%positive := Switch (mkSwitch 1 b3)]>
             (<[2%positive := Switch (mkSwitch 1 b2)]>
                (<[1%positive := Device LightBulb_obj]> ∅))) [] [].

(** * Properties *)

Section ControllerFacts.
Context {D : Type} `{!Switchable D}.

Implicit Types (w : World D) (self d : ref) (dev : D) (b : bool).

(** Two references that hold objects of different classes differ. *)
Lemma switch_device_ne w self d s dev :
  heap w !! self = Some (Switch s) →
  heap w !! d = Some (Device dev) →
  self ≠ d.
Proof. intros Hs Hd ->. rewrite Hs in Hd. discriminate. Qed.

(** Running a sequence: the continuation starts where the first
    computation stopped. *)
Lemma bind_run {A B} (m : M D A) (f : A → M D B) w a w1 :
  m w = Some (a, w1) → bind m f w = f a w1.
Proof. unfold bind. by intros ->. Qed.

Lemma getattr_is_on_run w self s :
  heap w !! self = Some (Switch s) →
  getattr_is_on self w = Some (is_on s, w).
Proof. unfold getattr_is_on. by intros ->. Qed.

Lemma getattr_device_run w self s :
  heap w !! self = Some (Switch s) →
  getattr_device self w = Some (device s, w).
Proof. unfold getattr_device. by intros ->. Qed.

Lemma setattr_is_on_run w self s b :
  heap w !! self = Some (Switch s) →
  setattr_is_on self b w =
    Some (tt, mkWorld (<[self := Switch (mkSwitch (device s) b)]> (heap w))
                      (stdout w) (calls w)).
Proof. unfold setattr_is_on. by intros ->. Qed.

Lemma call_device_run w m d dev :
  heap w !! d = Some (Device dev) →
  call_device m d w =
    Some (tt, mkWorld (<[d := Device (method_body m dev).1]> (heap w))
                      (stdout w ++ (method_body m dev).2)
                      (calls w ++ [DeviceCall d m])).
Proof.
  intros Hd. unfold call_device, bind, log; simpl. rewrite Hd.
  by destruct (method_body m dev).
Qed.

(** One [press] on a controller with flag [b] bound to a device: the
    world after the call, in full. *)
Lemma press_run w self d b dev :
  heap w !! self = Some (Switch (mkSwitch d b)) →
  heap w !! d = Some (Device dev) →
  press self w =
    Some (tt, mkWorld
      (<[self := Switch (mkSwitch d (negb b))]>
         (<[d := Device (method_body (pressed_method b) dev).1]> (heap w)))
      (stdout w ++ (method_body (pressed_method b) dev).2)
      (calls w ++ [PressCall self; DeviceCall d (pressed_method b)])).
Proof.
  intros Hs Hd.
  pose proof (switch_device_ne _ _ _ _ _ Hs Hd) as Hne.
  unfold press.
  erewrite bind_run by reflexivity.
  erewrite bind_run by (by apply getattr_is_on_run).
  assert (∀ m, (let* dev0 := getattr_device self in
                let* _ := call_device m dev0 in
                setattr_is_on self (negb b))
            (mkWorld (heap w) (stdout w) (calls w ++ [PressCall self])) =
          Some (tt, mkWorld
            (<[self := Switch (mkSwitch d (negb b))]>
               (<[d := Device (method_body m dev).1]> (heap w)))
            (stdout w ++ (method_body m dev).2)
            (calls w ++ [PressCall self; DeviceCall d m]))) as Hbranch.
  { intros m.
    erewrite bind_run by (by apply getattr_device_run).
    erewrite bind_run by (by apply call_device_run).
    erewrite setattr_is_on_run by (by simpl; rewrite lookup_insert_ne).
    simpl. by rewrite <- app_assoc. }
  destruct b; simpl; apply Hbranch.
Qed.

Lemma made_app w w' cs : calls w' = calls w ++ cs → made w w' = cs.
Proof. unfold made. intros ->. by rewrite drop_app_length. Qed.

Lemma written_app w w' out : stdout w' = stdout w ++ out → written w w' = out.
Proof. unfold written. intros ->. by rewrite drop_app_length. Qed.

Lemma calls_on_press self d m :
  calls_on d [PressCall self; DeviceCall d m] = [m].
Proof. unfold calls_on; simpl. by rewrite decide_True. Qed.

(** [press] keeps the controller bound to the same device, which is
    still a device, and flips the flag. *)
Lemma press_bound w self d b dev :
  heap w !! self = Some (Switch (mkSwitch d b)) →
  heap w !! d = Some (Device dev) →
  ∃ w', press self w = Some (tt, w') ∧
        heap w' !! self = Some (Switch (mkSwitch d (negb b))) ∧
        heap w' !! d = Some (Device (method_body (pressed_method b) dev).1) ∧
        stdout w' = stdout w ++ (method_body (pressed_method b) dev).2 ∧
        calls w' = calls w ++ [PressCall self; DeviceCall d (pressed_method b)].
Proof.
  intros Hs Hd.
  pose proof (switch_device_ne _ _ _ _ _ Hs Hd) as Hne.
  eexists. split; [by apply press_run|]. simpl.
  rewrite lookup_insert_eq, lookup_insert_ne, lookup_insert_eq by done.
  done.
Qed.

Lemma press_n_bound N : ∀ w self d b dev,
  heap w !! self = Some (Switch (mkSwitch d b)) →
  heap w !! d = Some (Device dev) →
  ∃ w' dev', press_n N self w = Some (tt, w') ∧
             heap w' !! self = Some (Switch (mkSwitch d (xorb b (Nat.odd N)))) ∧
             heap w' !! d = Some (Device dev').
Proof.
  induction N as [|N IH]; intros w self d b dev Hs Hd.
  - exists w, dev. simpl. by rewrite xorb_false_r.
  - destruct (press_bound _ _ _ _ _ Hs Hd) as (w1 & Hrun & Hs1 & Hd1 & _).
    destruct (IH _ _ _ _ _ Hs1 Hd1) as (w' & dev' & Hrun' & Hs' & Hd').
    exists w', dev'. split; [|split; [|done]].
    + simpl. by erewrite bind_run.
    + rewrite Hs'. rewrite Nat.odd_succ, <- Nat.negb_odd.
      by destruct b, (Nat.odd N).
Qed.

(** Construction of a controller in a world where [d] is a device. *)
Lemma ElectricPowerSwitch_init_run w d dev o :
  heap w !! d = Some (Device dev) →
  ∃ self w', ElectricPowerSwitch_init d o w = Some (self, w') ∧
             heap w !! self = None ∧
             heap w' !! self = Some (Switch (mkSwitch d (default false o))) ∧
             heap w' !! d = Some (Device dev) ∧
             stdout w' = stdout w ∧ calls w' = calls w.
Proof.
  intros Hd.
  assert (heap w !! fresh (dom (heap w)) = None) as Hfresh.
  { apply not_elem_of_dom, is_fresh. }
  eexists _, _. split; [reflexivity|]. simpl.
  rewrite lookup_insert_eq.
  rewrite lookup_insert_ne by (intros E; rewrite E in Hfresh; congruence).
  done.
Qed.
(** ** The controller as a two-state machine *)

(** C1: a controller constructed with the default flag reads [is_on = False]
    before any press, and after exactly [N] calls of [press()] its flag is
    [True] exactly when [N] is odd. *)
Theorem press_n_parity w d dev N :
  heap w !! d = Some (Device dev) →
  (∃ w0, (let* switch := ElectricPowerSwitch_init d None in
          getattr_is_on switch) w = Some (false, w0)) ∧
  (∃ w', (let* switch := ElectricPowerSwitch_init d None in
          let* _ := press_n N switch in
          getattr_is_on switch) w = Some (Nat.odd N, w')).
Proof.
  intros Hd.
  destruct (ElectricPowerSwitch_init_run w d dev None Hd)
    as (self & w1 & Hinit & _ & Hs1 & Hd1 & _).
  split.
  - exists w1. erewrite bind_run by exact Hinit.
    by rewrite (getattr_is_on_run _ _ _ Hs1).
  - destruct (press_n_bound N _ _ _ _ _ Hs1 Hd1) as (w' & dev' & Hrun & Hs' & _).
    exists w'. erewrite bind_run by exact Hinit.
    erewrite bind_run by exact Hrun.
    by rewrite (getattr_is_on_run _ _ _ Hs').
Qed.

(** C2, as amended: a [press()] in state OFF invokes [turn_on()] on the
    bound device exactly once, invokes [turn_off()] not at all, and leaves
    the controller in state ON. *)
Theorem press_off w self d dev :
  heap w !! self = Some (Switch (mkSwitch d false)) →
  heap w !! d = Some (Device dev) →
  ∃ w', press self w = Some (tt, w') ∧
        calls w' = calls w ++ made w w' ∧
        calls_on d (made w w') = [TurnOn] ∧
        (TurnOff ∉ calls_on d (made w w')) ∧
        getattr_is_on self w' = Some (true, w').
Proof.
  intros Hs Hd.
  destruct (press_bound _ _ _ _ _ Hs Hd) as (w' & Hrun & Hs' & _ & _ & Hc).
  exists w'. rewrite (made_app _ _ _ Hc), calls_on_press. simpl in *.
  repeat split; try done.
  - intros Hin. apply list_elem_of_singleton in Hin. discriminate.
  - by rewrite (getattr_is_on_run _ _ _ Hs').
Qed.

(** C3: every [press()], in either state, makes exactly one call on the
    bound device, and that call and the flag change together: the call is
    [turn_on()] exactly when the flag becomes [True], the flag always
    flips, and the device and the output are those the called method
    leaves. *)
Theorem press_one_call w self d b dev :
  heap w !! self = Some (Switch (mkSwitch d b)) →
  heap w !! d = Some (Device dev) →
  ∃ w' m, press self w = Some (tt, w') ∧
          calls w' = calls w ++ made w w' ∧
          calls_on d (made w w') = [m] ∧
          length (calls_on d (made w w')) = 1 ∧
          heap w' !! self = Some (Switch (mkSwitch d (negb b))) ∧
          m = (if negb b then TurnOn else TurnOff) ∧
          heap w' !! d = Some (Device (method_body m dev).1) ∧
          stdout w' = stdout w ++ (method_body m dev).2.
Proof.
  intros Hs Hd.
  destruct (press_bound _ _ _ _ _ Hs Hd) as (w' & Hrun & Hs' & Hd' & Ho & Hc).
  exists w', (pressed_method b).
  rewrite (made_app _ _ _ Hc), calls_on_press.
  repeat split; try done. by destruct b.
Qed.

(** C4: a [press()] in state ON invokes [turn_off()] on the bound device
    exactly once (and nothing else on it) and leaves the controller in
    state OFF. *)
Theorem press_on w self d dev :
  heap w !! self = Some (Switch (mkSwitch d true)) →
  heap w !! d = Some (Device dev) →
  ∃ w', press self w = Some (tt, w') ∧
        calls w' = calls w ++ made w w' ∧
        calls_on d (made w w') = [TurnOff] ∧
        getattr_is_on self w' = Some (false, w').
Proof.
  intros Hs Hd.
  destruct (press_bound _ _ _ _ _ Hs Hd) as (w' & Hrun & Hs' & _ & _ & Hc).
  exists w'. rewrite (made_app _ _ _ Hc), calls_on_press. simpl in *.
  repeat split; try done.
  by rewrite (getattr_is_on_run _ _ _ Hs').
Qed.

(** C9: two consecutive calls of [press()] give the flag back the value it
    had before the first one, whatever that value was. *)
Theorem press_press_is_on w self d b dev :
  heap w !! self = Some (Switch (mkSwitch d b)) →
  heap w !! d = Some (Device dev) →
  ∃ w', (let* _ := press self in press self) w = Some (tt, w') ∧
        getattr_is_on self w = Some (b, w) ∧
        getattr_is_on self w' = Some (b, w').
Proof.
  intros Hs Hd.
  destruct (press_bound _ _ _ _ _ Hs Hd) as (w1 & Hrun1 & Hs1 & Hd1 & _).
  destruct (press_bound _ _ _ _ _ Hs1 Hd1) as (w2 & Hrun2 & Hs2 & _).
  exists w2. split; [by erewrite bind_run|].
  rewrite negb_involutive in Hs2.
  by rewrite (getattr_is_on_run _ _ _ Hs), (getattr_is_on_run _ _ _ Hs2).
Qed.

(** C10: [press()] leaves the [device] field of the controller alone: the
    controller found after the call holds the same reference, and differs
    from the one before only in [is_on]. *)
Theorem press_keeps_device w self s dev :
  heap w !! self = Some (Switch s) →
  heap w !! device s = Some (Device dev) →
  ∃ w' s', press self w = Some (tt, w') ∧
           heap w' !! self = Some (Switch s') ∧
           device s' = device s ∧
           getattr_device self w = Some (device s, w) ∧
           getattr_device self w' = Some (device s, w') ∧
           s' = mkSwitch (device s) (negb (is_on s)).
Proof.
  intros Hs Hd. destruct s as [d b]; simpl in *.
  destruct (press_bound _ _ _ _ _ Hs Hd) as (w' & Hrun & Hs' & _).
  exists w', (mkSwitch d (negb b)).
  by rewrite (getattr_device_run _ _ _ Hs), (getattr_device_run _ _ _ Hs').
Qed.
End ControllerFacts.

(** The statements above, at a bulb and a controller bound to it. *)

Lemma press_n_parity_witness :
  heap (bulb_world false) !! 1%positive = Some (Device LightBulb_obj) ∧
  ((∃ w0, (let* switch := ElectricPowerSwitch_init 1 None in
           getattr_is_on switch) (bulb_world false) = Some (false, w0)) ∧
   (∃ w', (let* switch := ElectricPowerSwitch_init 1 None in
           let* _ := press_n 3 switch in
           getattr_is_on switch) (bulb_world false) = Some (Nat.odd 3, w'))).
Proof.
  split; [reflexivity|].
  apply (press_n_parity (bulb_world false) 1 LightBulb_obj 3). reflexivity.
Defined.

Lemma press_off_witness :
  heap (bulb_world false) !! 2%positive = Some (Switch (mkSwitch 1 false)) ∧
  heap (bulb_world false) !! 1%positive = Some (Device LightBulb_obj) ∧
  ∃ w', press 2 (bulb_world false) = Some (tt, w') ∧
        calls w' = calls (bulb_world false) ++ made (bulb_world false) w' ∧
        calls_on 1 (made (bulb_world false) w') = [TurnOn] ∧
        (TurnOff ∉ calls_on 1 (made (bulb_world false) w')) ∧
        getattr_is_on 2 w' = Some (true, w').
Proof.
  split; [reflexivity|]. split; [reflexivity|].
  apply (press_off (bulb_world false) 2 1 LightBulb_obj); reflexivity.
Defined.

Lemma press_one_call_witness :
  heap (bulb_world true) !! 2%positive = Some (Switch (mkSwitch 1 true)) ∧
  heap (bulb_world true) !! 1%positive = Some (Device LightBulb_obj) ∧
  ∃ w' m, press 2 (bulb_world true) = Some (tt, w') ∧
          calls w' = calls (bulb_world true) ++ made (bulb_world true) w' ∧
          calls_on 1 (made (bulb_world true) w') = [m] ∧
          length (calls_on 1 (made (bulb_world true) w')) = 1 ∧
          heap w' !! 2%positive = Some (Switch (mkSwitch 1 (negb true))) ∧
          m = (if negb true then TurnOn else TurnOff) ∧
          heap w' !! 1%positive = Some (Device (method_body m LightBulb_obj).1) ∧
          stdout w' = stdout (bulb_world true) ++ (method_body m LightBulb_obj).2.
Proof.
  split; [reflexivity|]. split; [reflexivity|].
  apply (press_one_call (bulb_world true) 2 1 true LightBulb_obj); reflexivity.
Defined.

Lemma press_on_witness :
  heap (bulb_world true) !! 2%positive = Some (Switch (mkSwitch 1 true)) ∧
  heap (bulb_world true) !! 1%positive = Some (Device LightBulb_obj) ∧
  ∃ w', press 2 (bulb_world true) = Some (tt, w') ∧
        calls w' = calls (bulb_world true) ++ made (bulb_world true) w' ∧
        calls_on 1 (made (bulb_world true) w') = [TurnOff] ∧
        getattr_is_on 2 w' = Some (false, w').
Proof.
  split; [reflexivity|]. split; [reflexivity|].
  apply (press_on (bulb_world true) 2 1 LightBulb_obj); reflexivity.
Defined.

Lemma press_press_is_on_witness :
  heap (bulb_world true) !! 2%positive = Some (Switch (mkSwitch 1 true)) ∧
  heap (bulb_world true) !! 1%positive = Some (Device LightBulb_obj) ∧
  ∃ w', (let* _ := press 2 in press 2) (bulb_world true) = Some (tt, w') ∧
        getattr_is_on 2 (bulb_world true) = Some (true, bulb_world true) ∧
        getattr_is_on 2 w' = Some (true, w').
Proof.
  split; [reflexivity|]. split; [reflexivity|].
  apply (press_press_is_on (bulb_world true) 2 1 true LightBulb_obj); reflexivity.
Defined.

Lemma press_keeps_device_witness :
  heap (bulb_world false) !! 2%positive = Some (Switch (mkSwitch 1 false)) ∧
  heap (bulb_world false) !! 1%positive = Some (Device LightBulb_obj) ∧
  ∃ w' s', press 2 (bulb_world false) = Some (tt, w') ∧
           heap w' !! 2%positive = Some (Switch s') ∧
           device s' = 1%positive ∧
           getattr_device 2 (bulb_world false) = Some (1%positive, bulb_world false) ∧
           getattr_device 2 w' = Some (1%positive, w') ∧
           s' = mkSwitch 1 (negb false).
Proof.
  split; [reflexivity|]. split; [reflexivity|].
  apply (press_keeps_device (bulb_world false) 2 (mkSwitch 1 false) LightBulb_obj);
    reflexivity.
Defined.

(** ** The light bulb and the script *)

(** Each method of a [LightBulb] leaves the object as it is and prints its
    one line. *)
Lemma LightBulb_method_body (m : switchable_method) (self : LightBulb) :
  method_body m self = (self, [LightBulb_notification m]).
Proof. by destruct m. Qed.

Lemma calls_on_cons_device d m l :
  calls_on d (DeviceCall d m :: l) = m :: calls_on d l.
Proof. unfold calls_on; simpl. by rewrite decide_True. Qed.

Lemma calls_on_map_device d ms : calls_on d (map (DeviceCall d) ms) = ms.
Proof.
  induction ms as [|m ms IH]; [done|].
  cbn [map]. by rewrite calls_on_cons_device, IH.
Qed.

Lemma LightBulb_call_all ms : ∀ (w : World LightBulb) r,
  heap w !! r = Some (Device LightBulb_obj) →
  ∃ w', call_all ms r w = Some (tt, w') ∧
        heap w' = heap w ∧
        stdout w' = stdout w ++ map LightBulb_notification ms ∧
        calls w' = calls w ++ map (DeviceCall r) ms.
Proof.
  induction ms as [|m ms IH]; intros w r Hr.
  - exists w. simpl. by rewrite !app_nil_r.
  - pose proof (call_device_run w m r _ Hr) as Hrun.
    rewrite LightBulb_method_body in Hrun; simpl in Hrun.
    rewrite (insert_id _ _ _ Hr) in Hrun.
    destruct (IH (mkWorld (heap w) (stdout w ++ [LightBulb_notification m])
                          (calls w ++ [DeviceCall r m])) r Hr)
      as (w' & Hrun' & Hh & Ho & Hc).
    exists w'. simpl in *. split; [by erewrite bind_run|].
    by rewrite Hh, Ho, Hc, <- !app_assoc.
Qed.

(** C2, as stated, fails: with a bulb and its controller in state OFF,
    [press()] does not call [turn_off()] and then [turn_on()] on the
    device; it calls [turn_on()] only. *)
Lemma press_off_counterexample :
  heap (bulb_world false) !! 2%positive = Some (Switch (mkSwitch 1 false)) ∧
  heap (bulb_world false) !! 1%positive = Some (Device LightBulb_obj) ∧
  (∃ w', press 2 (bulb_world false) = Some (tt, w') ∧
         calls_on 1 (made (bulb_world false) w') = [TurnOn]) ∧
  ¬ (∃ w', press 2 (bulb_world false) = Some (tt, w') ∧
           calls_on 1 (made (bulb_world false) w') = [TurnOff; TurnOn] ∧
           getattr_is_on 2 w' = Some (true, w')).
Proof.
  assert (heap (bulb_world false) !! 2%positive = Some (Switch (mkSwitch 1 false)))
    as Hs by reflexivity.
  assert (heap (bulb_world false) !! 1%positive = Some (Device LightBulb_obj))
    as Hd by reflexivity.
  destruct (press_bound _ _ _ _ _ Hs Hd) as (w1 & Hrun & _ & _ & _ & Hc).
  apply made_app in Hc.
  repeat split; try done.
  - exists w1. by rewrite Hc.
  - intros (w' & Hrun' & Hcalls & _).
    rewrite Hrun in Hrun'. injection Hrun' as <-.
    rewrite Hc in Hcalls. discriminate.
Qed.

(** C5: after the first [press()] on a newly constructed controller bound
    to a bulb, [is_on] is [True], the bulb has printed its "turned on" line
    exactly once and its "turned off" line not at all. *)
Theorem first_press (w : World LightBulb) d :
  heap w !! d = Some (Device LightBulb_obj) →
  ∃ w', (let* switch := ElectricPowerSwitch_init d None in
         let* _ := press switch in
         getattr_is_on switch) w = Some (true, w') ∧
        stdout w' = stdout w ++ written w w' ∧
        occurrences "LightBulb: turned on..." (written w w') = 1 ∧
        occurrences "LightBulb: turned off..." (written w w') = 0 ∧
        calls_on d (made w w') = [TurnOn].
Proof.
  intros Hd.
  destruct (ElectricPowerSwitch_init_run w d _ None Hd)
    as (self & w1 & Hinit & _ & Hs1 & Hd1 & Ho1 & Hc1).
  destruct (press_bound _ _ _ _ _ Hs1 Hd1) as (w2 & Hrun & Hs2 & _ & Ho2 & Hc2).
  exists w2. simpl in *. rewrite Ho1 in Ho2. rewrite Hc1 in Hc2.
  rewrite (written_app _ _ _ Ho2), (made_app _ _ _ Hc2), calls_on_press.
  repeat split; try done.
  erewrite bind_run by exact Hinit.
  erewrite bind_run by exact Hrun.
  by rewrite (getattr_is_on_run _ _ _ Hs2).
Qed.

(** C6: after two consecutive calls of [press()] on a newly constructed
    controller bound to a bulb, [is_on] is [False] and the bulb has printed
    "turned on" once and then "turned off" once. *)
Theorem two_presses (w : World LightBulb) d :
  heap w !! d = Some (Device LightBulb_obj) →
  ∃ w', (let* switch := ElectricPowerSwitch_init d None in
         let* _ := press switch in
         let* _ := press switch in
         getattr_is_on switch) w = Some (false, w') ∧
        stdout w' = stdout w ++ written w w' ∧
        written w w' = ["LightBulb: turned on..."; "LightBulb: turned off..."] ∧
        occurrences "LightBulb: turned on..." (written w w') = 1 ∧
        occurrences "LightBulb: turned off..." (written w w') = 1 ∧
        calls_on d (made w w') = [TurnOn; TurnOff].
Proof.
  intros Hd.
  destruct (ElectricPowerSwitch_init_run w d _ None Hd)
    as (self & w1 & Hinit & _ & Hs1 & Hd1 & Ho1 & Hc1).
  destruct (press_bound _ _ _ _ _ Hs1 Hd1) as (w2 & Hrun2 & Hs2 & Hd2 & Ho2 & Hc2).
  destruct (press_bound _ _ _ _ _ Hs2 Hd2) as (w3 & Hrun3 & Hs3 & _ & Ho3 & Hc3).
  exists w3. simpl in *.
  rewrite Ho2, Ho1, <- app_assoc in Ho3. rewrite Hc2, Hc1, <- app_assoc in Hc3.
  rewrite (written_app _ _ _ Ho3), (made_app _ _ _ Hc3).
  repeat split; try done.
  - erewrite bind_run by exact Hinit.
    erewrite bind_run by exact Hrun2.
    erewrite bind_run by exact Hrun3.
    by rewrite (getattr_is_on_run _ _ _ Hs3).
  - unfold calls_on; simpl. by rewrite !decide_True.
Qed.

(** C7: the methods of a [LightBulb] keep no state, always return, and only
    print: any sequence of [turn_on()] and [turn_off()] calls on a bulb runs
    to the end, leaves the heap as it was and writes one line per call, the
    line of that call; two [turn_on()] calls in a row write the "turned on"
    line twice. *)
Theorem LightBulb_calls (w : World LightBulb) r ms :
  heap w !! r = Some (Device LightBulb_obj) →
  (∀ m self, method_body m self = (self, [LightBulb_notification m])) ∧
  (∃ w', call_all ms r w = Some (tt, w') ∧
         heap w' = heap w ∧
         stdout w' = stdout w ++ written w w' ∧
         written w w' = map LightBulb_notification ms ∧
         length (written w w') = length ms ∧
         calls_on r (made w w') = ms) ∧
  (∃ w2, (let* _ := call_turn_on r in call_turn_on r) w = Some (tt, w2) ∧
         written w w2 = ["LightBulb: turned on..."; "LightBulb: turned on..."]).
Proof.
  intros Hr. split; [apply LightBulb_method_body|]. split.
  - destruct (LightBulb_call_all ms w r Hr) as (w' & Hrun & Hh & Ho & Hc).
    exists w'. rewrite (written_app _ _ _ Ho), (made_app _ _ _ Hc).
    repeat split; try done.
    + by rewrite length_map.
    + apply calls_on_map_device.
  - destruct (LightBulb_call_all [TurnOn; TurnOn] w r Hr)
      as (w' & Hrun & _ & Ho & _).
    exists w'. rewrite (written_app _ _ _ Ho). split; [|done].
    rewrite <- Hrun. simpl. unfold call_turn_on, bind.
    destruct (call_device TurnOn r w) as [[[] w1]|]; [|done].
    by destruct (call_device TurnOn r w1) as [[[] ?]|].
Qed.

(** C8: the script creates one bulb and one controller bound to it, calls
    [press()] on that controller exactly twice, and writes exactly two
    lines: the bulb's "turned on" line and then its "turned off" line. *)
Theorem main_run :
  (∀ w : World LightBulb, ∃ bulb switch w',
     main w = Some (tt, w') ∧
     heap w !! bulb = None ∧ heap w !! switch = None ∧ bulb ≠ switch ∧
     heap w' = <[switch := Switch (mkSwitch bulb false)]>
                 (<[bulb := Device LightBulb_obj]> (heap w)) ∧
     calls w' = calls w ++ made w w' ∧
     press_calls (made w w') = [switch; switch] ∧
     calls_on bulb (made w w') = [TurnOn; TurnOff] ∧
     stdout w' = stdout w ++ written w w' ∧
     written w w' = ["LightBulb: turned on..."; "LightBulb: turned off..."]) ∧
  (∃ w', main initial_world = Some (tt, w') ∧
         stdout w' = ["LightBulb: turned on..."; "LightBulb: turned off..."]).
Proof.
  split; [|by eexists].
  intros w.
  set (b := fresh (dom (heap w))).
  set (h1 := <[b := Device LightBulb_obj]> (heap w)).
  set (s := fresh (dom h1)).
  set (h2 := <[s := Switch (mkSwitch b false)]> h1).
  assert (heap w !! b = None) as Hb by apply not_elem_of_dom, is_fresh.
  assert (h1 !! s = None) as Hs1 by apply not_elem_of_dom, is_fresh.
  assert (b ≠ s) as Hne.
  { intros E. rewrite <- E in Hs1. unfold h1 in Hs1.
    by rewrite lookup_insert_eq in Hs1. }
  assert (heap w !! s = None) as Hs.
  { unfold h1 in Hs1. by rewrite lookup_insert_ne in Hs1. }
  pose (w2 := mkWorld h2 (stdout w) (calls w)).
  assert (heap w2 !! s = Some (Switch (mkSwitch b false))) as Hs2.
  { simpl. unfold h2. by rewrite lookup_insert_eq. }
  assert (heap w2 !! b = Some (Device LightBulb_obj)) as Hb2.
  { simpl. unfold h2, h1. by rewrite lookup_insert_ne, lookup_insert_eq. }
  pose proof (press_run _ _ _ _ _ Hs2 Hb2) as Hrun3.
  set (w3 := mkWorld _ _ _) in Hrun3.
  assert (heap w3 !! s = Some (Switch (mkSwitch b true))) as Hs3.
  { simpl. by rewrite lookup_insert_eq. }
  assert (heap w3 !! b = Some (Device LightBulb_obj)) as Hb3.
  { simpl. by rewrite lookup_insert_ne, lookup_insert_eq. }
  pose proof (press_run _ _ _ _ _ Hs3 Hb3) as Hrun4.
  set (w4 := mkWorld _ _ _) in Hrun4.
  assert (calls w4 = calls w ++ [PressCall s; DeviceCall b TurnOn;
                                 PressCall s; DeviceCall b TurnOff]) as Hc.
  { simpl. by rewrite <- app_assoc. }
  assert (stdout w4 = stdout w ++ ["LightBulb: turned on...";
                                   "LightBulb: turned off..."]) as Ho.
  { simpl. by rewrite <- app_assoc. }
  exists b, s, w4.
  rewrite (made_app _ _ _ Hc), (written_app _ _ _ Ho).
  repeat split; try done.
  - unfold main.
    erewrite bind_run by reflexivity.
    erewrite bind_run by reflexivity.
    erewrite bind_run by exact Hrun3.
    exact Hrun4.
  - simpl. apply map_eq. intros i. unfold h2, h1.
    rewrite !lookup_insert. by repeat case_decide.
  - unfold calls_on; simpl. by rewrite !decide_True.
Qed.

Lemma first_press_witness :
  heap (bulb_world false) !! 1%positive = Some (Device LightBulb_obj) ∧
  ∃ w', (let* switch := ElectricPowerSwitch_init 1 None in
         let* _ := press switch in
         getattr_is_on switch) (bulb_world false) = Some (true, w') ∧
        stdout w' = stdout (bulb_world false) ++ written (bulb_world false) w' ∧
        occurrences "LightBulb: turned on..." (written (bulb_world false) w') = 1 ∧
        occurrences "LightBulb: turned off..." (written (bulb_world false) w') = 0 ∧
        calls_on 1 (made (bulb_world false) w') = [TurnOn].
Proof.
  split; [reflexivity|].
  apply (first_press (bulb_world false) 1). reflexivity.
Defined.

Lemma two_presses_witness :
  heap (bulb_world false) !! 1%positive = Some (Device LightBulb_obj) ∧
  ∃ w', (let* switch := ElectricPowerSwitch_init 1 None in
         let* _ := press switch in
         let* _ := press switch in
         getattr_is_on switch) (bulb_world false) = Some (false, w') ∧
        stdout w' = stdout (bulb_world false) ++ written (bulb_world false) w' ∧
        written (bulb_world false) w' =
          ["LightBulb: turned on..."; "LightBulb: turned off..."] ∧
        occurrences "LightBulb: turned on..." (written (bulb_world false) w') = 1 ∧
        occurrences "LightBulb: turned off..." (written (bulb_world false) w') = 1 ∧
        calls_on 1 (made (bulb_world false) w') = [TurnOn; TurnOff].
Proof.
  split; [reflexivity|].
  apply (two_presses (bulb_world false) 1). reflexivity.
Defined.

Lemma LightBulb_calls_witness :
  heap (bulb_world false) !! 1%positive = Some (Device LightBulb_obj) ∧
  (∀ m self, method_body m self = (self, [LightBulb_notification m])) ∧
  (∃ w', call_all [TurnOn; TurnOn; TurnOff] 1 (bulb_world false) = Some (tt, w') ∧
         heap w' = heap (bulb_world false) ∧
         stdout w' = stdout (bulb_world false) ++ written (bulb_world false) w' ∧
         written (bulb_world false) w' =
           map LightBulb_notification [TurnOn; TurnOn; TurnOff] ∧
         length (written (bulb_world false) w') = length [TurnOn; TurnOn; TurnOff] ∧
         calls_on 1 (made (bulb_world false) w') = [TurnOn; TurnOn; TurnOff]) ∧
  (∃ w2, (let* _ := call_turn_on 1 in call_turn_on 1) (bulb_world false)
           = Some (tt, w2) ∧
         written (bulb_world false) w2 =
           ["LightBulb: turned on..."; "LightBulb: turned on..."]).
Proof.
  split; [reflexivity|].
  apply (LightBulb_calls (bulb_world false) 1 [TurnOn; TurnOn; TurnOff]).
  reflexivity.
Defined.

(** * Further properties of the controller *)

Section ControllerTraces.
Context {D : Type} `{!Switchable D}.

Implicit Types (w : World D) (self d : ref) (dev : D) (b : bool).

Lemma calls_on_press_log self d b n :
  calls_on d (press_log self d b n) = alternate b n.
Proof.
  revert b. induction n as [|n IH]; intros b; [done|].
  cbn [press_log alternate].
  change (calls_on d (PressCall self :: ?l)) with (calls_on d l).
  by rewrite calls_on_cons_device, IH.
Qed.

Lemma press_calls_press_log self d b n :
  press_calls (press_log self d b n) = replicate n self.
Proof.
  revert b. induction n as [|n IH]; intros b; [done|].
  cbn [press_log replicate].
  change (press_calls (PressCall self :: DeviceCall d ?m :: ?l))
    with (self :: press_calls l).
  by rewrite IH.
Qed.

Lemma length_alternate b n : length (alternate b n) = n.
Proof. revert b. induction n as [|n IH]; intros b; simpl; by rewrite ?IH. Qed.

Lemma last_alternate n : ∀ b,
  last (alternate b (S n)) = Some (pressed_method (xorb b (Nat.odd n))).
Proof.
  induction n as [|n IH]; intros b.
  - simpl. by rewrite xorb_false_r.
  - change (alternate b (S (S n)))
      with (pressed_method b :: alternate (negb b) (S n)).
    rewrite last_cons, IH. simpl.
    rewrite Nat.odd_succ, <- Nat.negb_odd.
    by destruct b, (Nat.odd n).
Qed.

(** [n] presses in full: the run ends, the controller is still bound to
    the same device, and the log has grown by [press_log]. *)
Lemma press_n_log n : ∀ w self d b dev,
  heap w !! self = Some (Switch (mkSwitch d b)) →
  heap w !! d = Some (Device dev) →
  ∃ w' dev', press_n n self w = Some (tt, w') ∧
             heap w' !! self = Some (Switch (mkSwitch d (xorb b (Nat.odd n)))) ∧
             heap w' !! d = Some (Device dev') ∧
             dom (heap w') = dom (heap w) ∧
             (∀ r, r ≠ self → r ≠ d → heap w' !! r = heap w !! r) ∧
             calls w' = calls w ++ press_log self d b n.
Proof.
  induction n as [|n IH]; intros w self d b dev Hs Hd.
  - exists w, dev. simpl. by rewrite xorb_false_r, app_nil_r.
  - pose proof (switch_device_ne _ _ _ _ _ Hs Hd) as Hne.
    pose proof (press_run _ _ _ _ _ Hs Hd) as Hrun.
    set (w1 := mkWorld _ _ _) in Hrun.
    assert (heap w1 !! self = Some (Switch (mkSwitch d (negb b)))) as Hs1.
    { simpl. by rewrite lookup_insert_eq. }
    assert (heap w1 !! d = Some (Device (method_body (pressed_method b) dev).1))
      as Hd1.
    { simpl. by rewrite lookup_insert_ne, lookup_insert_eq. }
    destruct (IH _ _ _ _ _ Hs1 Hd1) as (w' & dev' & Hrun' & Hs' & Hd' & Hdom & Hfr & Hc).
    exists w', dev'. repeat split.
    + simpl. by erewrite bind_run.
    + rewrite Hs'. rewrite Nat.odd_succ, <- Nat.negb_odd.
      by destruct b, (Nat.odd n).
    + done.
    + rewrite Hdom. simpl. rewrite !dom_insert_L.
      apply (elem_of_dom_2 (heap w)) in Hs, Hd.
      apply set_eq. intros r. rewrite !elem_of_union, !elem_of_singleton.
      split; [by intros [->|[->|?]] | by right; right].
    + intros r Hr1 Hr2. rewrite (Hfr r Hr1 Hr2). simpl.
      by rewrite !lookup_insert_ne.
    + rewrite Hc. simpl. by rewrite <- app_assoc.
Qed.

(** X1: a [press()] changes nothing in the heap but the controller and the
    device it is bound to, and creates no object. *)
Theorem press_frame w self d b dev :
  heap w !! self = Some (Switch (mkSwitch d b)) →
  heap w !! d = Some (Device dev) →
  ∃ w', press self w = Some (tt, w') ∧
        dom (heap w') = dom (heap w) ∧
        (∀ r, r ≠ self → r ≠ d → heap w' !! r = heap w !! r).
Proof.
  intros Hs Hd.
  destruct (press_n_log 1 _ _ _ _ _ Hs Hd) as (w' & dev' & Hrun & _ & _ & Hdom & Hfr & _).
  exists w'. split; [|done].
  simpl in Hrun. unfold bind in Hrun.
  by destruct (press self w) as [[[] w1]|].
Qed.

(** X2: [n] consecutive presses on a controller with flag [b] make exactly
    [n] calls on the bound device, alternately [turn_on()] and
    [turn_off()], the first one [turn_on()] exactly when [b] is [False];
    the log holds [n] presses of that controller, and the flag ends as
    [b] xor ([n] is odd). *)
Theorem press_n_trace w self d b dev n :
  heap w !! self = Some (Switch (mkSwitch d b)) →
  heap w !! d = Some (Device dev) →
  ∃ w', press_n n self w = Some (tt, w') ∧
        getattr_is_on self w' = Some (xorb b (Nat.odd n), w') ∧
        getattr_device self w' = Some (d, w') ∧
        calls w' = calls w ++ made w w' ∧
        press_calls (made w w') = replicate n self ∧
        calls_on d (made w w') = alternate b n ∧
        length (calls_on d (made w w')) = n.
Proof.
  intros Hs Hd.
  destruct (press_n_log n _ _ _ _ _ Hs Hd) as (w' & dev' & Hrun & Hs' & _ & _ & _ & Hc).
  exists w'. rewrite (made_app _ _ _ Hc).
  rewrite (getattr_is_on_run _ _ _ Hs'), (getattr_device_run _ _ _ Hs').
  rewrite calls_on_press_log, press_calls_press_log, length_alternate.
  done.
Qed.

(** X3: after one or more presses the flag tells the last call made on the
    device: it is [True] exactly when that call was [turn_on()]. *)
Theorem press_n_last_call w self d b dev n :
  0 < n →
  heap w !! self = Some (Switch (mkSwitch d b)) →
  heap w !! d = Some (Device dev) →
  ∃ w' on, press_n n self w = Some (tt, w') ∧
           getattr_is_on self w' = Some (on, w') ∧
           last (calls_on d (made w w')) = Some (if on then TurnOn else TurnOff).
Proof.
  intros Hn Hs Hd. destruct n as [|n]; [lia|].
  destruct (press_n_log (S n) _ _ _ _ _ Hs Hd)
    as (w' & dev' & Hrun & Hs' & _ & _ & _ & Hc).
  exists w', (xorb b (Nat.odd (S n))).
  rewrite (made_app _ _ _ Hc), (getattr_is_on_run _ _ _ Hs').
  rewrite calls_on_press_log, last_alternate.
  repeat split; try done.
  rewrite Nat.odd_succ, <- Nat.negb_odd.
  by destruct b, (Nat.odd n).
Qed.

(** X4: two controllers bound to one device keep separate flags.  A press
    of the first leaves the second as it was; pressing one and then the
    other flips both flags and makes two calls on the device, each chosen by
    the flag of the controller pressed alone. *)
Theorem press_shared_device w s1 s2 d b1 b2 dev :
  s1 ≠ s2 →
  heap w !! s1 = Some (Switch (mkSwitch d b1)) →
  heap w !! s2 = Some (Switch (mkSwitch d b2)) →
  heap w !! d = Some (Device dev) →
  (∃ w1, press s1 w = Some (tt, w1) ∧ heap w1 !! s2 = heap w !! s2) ∧
  (∃ w', (let* _ := press s1 in press s2) w = Some (tt, w') ∧
         heap w' !! s1 = Some (Switch (mkSwitch d (negb b1))) ∧
         heap w' !! s2 = Some (Switch (mkSwitch d (negb b2))) ∧
         calls_on d (made w w') = [pressed_method b1; pressed_method b2]).
Proof.
  intros Hne Hs1 Hs2 Hd.
  pose proof (switch_device_ne _ _ _ _ _ Hs1 Hd) as Hne1.
  pose proof (switch_device_ne _ _ _ _ _ Hs2 Hd) as Hne2.
  pose proof (press_run _ _ _ _ _ Hs1 Hd) as Hrun1.
  set (w1 := mkWorld _ _ _) in Hrun1.
  assert (heap w1 !! s2 = Some (Switch (mkSwitch d b2))) as Hs2'.
  { simpl. by rewrite !lookup_insert_ne. }
  assert (heap w1 !! d = Some (Device (method_body (pressed_method b1) dev).1))
    as Hd'.
  { simpl. by rewrite lookup_insert_ne, lookup_insert_eq. }
  pose proof (press_run _ _ _ _ _ Hs2' Hd') as Hrun2.
  set (w2 := mkWorld _ _ _) in Hrun2.
  split.
  - exists w1. by rewrite Hs2', Hs2.
  - exists w2. split; [by erewrite bind_run|].
    assert (calls w2 = calls w ++ [PressCall s1; DeviceCall d (pressed_method b1);
                                   PressCall s2; DeviceCall d (pressed_method b2)])
      as Hc.
    { simpl. by rewrite <- app_assoc. }
    rewrite (made_app _ _ _ Hc). simpl.
    rewrite lookup_insert_eq, lookup_insert_ne, lookup_insert_ne by done.
    rewrite lookup_insert_eq.
    repeat split; try done.
    unfold calls_on; simpl. by rewrite !decide_True.
Qed.

(** X5: the constructor accepts any reference as [device]; when the object
    there is not a device (here: another controller), the controller is
    built all the same and its first [press()] fails. *)
Theorem press_not_switchable w d s o :
  heap w !! d = Some (Switch s) →
  ∃ self w1, ElectricPowerSwitch_init d o w = Some (self, w1) ∧
             heap w1 !! self = Some (Switch (mkSwitch d (default false o))) ∧
             press self w1 = None.
Proof.
  intros Hd.
  assert (heap w !! fresh (dom (heap w)) = None) as Hfresh
    by apply not_elem_of_dom, is_fresh.
  eexists _, _. split; [reflexivity|]. simpl.
  rewrite lookup_insert_eq. split; [done|].
  unfold press.
  erewrite bind_run by reflexivity.
  erewrite bind_run by (apply getattr_is_on_run; simpl; apply lookup_insert_eq).
  assert (∀ m b, (let* dev := getattr_device (fresh (dom (heap w))) in
                  let* _ := call_device m dev in
                  setattr_is_on (fresh (dom (heap w))) b)
            (mkWorld (<[fresh (dom (heap w)) := Switch (mkSwitch d (default false o))]> (heap w))
                     (stdout w) (calls w ++ [PressCall (fresh (dom (heap w)))]))
          = None) as Hbranch.
  { intros m b.
    erewrite bind_run by (apply getattr_device_run; simpl; apply lookup_insert_eq).
    simpl. unfold bind, call_device, bind, log; simpl.
    rewrite lookup_insert_ne by (intros E; rewrite E in Hfresh; congruence).
    by rewrite Hd. }
  simpl. destruct (default false o); apply Hbranch.
Qed.

(** X6: constructing a controller makes no call on the device and writes
    nothing, whichever [is_on] is given, and touches no existing object;
    the first [press()] then calls [turn_off()] when the controller was
    built with [is_on=True] and [turn_on()] otherwise. *)
Theorem init_then_press w d dev o :
  heap w !! d = Some (Device dev) →
  ∃ self w1 w2,
    ElectricPowerSwitch_init d o w = Some (self, w1) ∧
    heap w !! self = None ∧
    (∀ r, r ≠ self → heap w1 !! r = heap w !! r) ∧
    stdout w1 = stdout w ∧ calls w1 = calls w ∧
    getattr_is_on self w1 = Some (default false o, w1) ∧
    press self w1 = Some (tt, w2) ∧
    calls_on d (made w w2) = [pressed_method (default false o)] ∧
    getattr_is_on self w2 = Some (negb (default false o), w2).
Proof.
  intros Hd.
  assert (heap w !! fresh (dom (heap w)) = None) as Hfresh
    by apply not_elem_of_dom, is_fresh.
  set (self := fresh (dom (heap w))) in *.
  set (w1 := mkWorld (<[self := Switch (mkSwitch d (default false o))]> (heap w))
                     (stdout w) (calls w)).
  assert (heap w1 !! self = Some (Switch (mkSwitch d (default false o)))) as Hs1.
  { simpl. by rewrite lookup_insert_eq. }
  assert (heap w1 !! d = Some (Device dev)) as Hd1.
  { simpl. rewrite lookup_insert_ne; [done|]. intros E. rewrite E in Hfresh.
    congruence. }
  destruct (press_bound _ _ _ _ _ Hs1 Hd1) as (w2 & Hrun & Hs2 & _ & _ & Hc).
  exists self, w1, w2. simpl in Hc.
  rewrite (made_app _ _ _ Hc), calls_on_press.
  rewrite (getattr_is_on_run _ _ _ Hs1), (getattr_is_on_run _ _ _ Hs2).
  repeat split; try done.
  intros r Hr. simpl. by rewrite lookup_insert_ne.
Qed.
End ControllerTraces.

(** ** Presses on a light bulb *)

(** [n] presses of a controller bound to a bulb: the heap differs from the
    one before in the controller's flag only, and the output has grown by
    the lines of the calls made. *)
Lemma LightBulb_press_n n : ∀ (w : World LightBulb) self d b,
  heap w !! self = Some (Switch (mkSwitch d b)) →
  heap w !! d = Some (Device LightBulb_obj) →
  ∃ w', press_n n self w = Some (tt, w') ∧
        heap w' = <[self := Switch (mkSwitch d (xorb b (Nat.odd n)))]> (heap w) ∧
        stdout w' = stdout w ++ map LightBulb_notification (alternate b n).
Proof.
  induction n as [|n IH]; intros w self d b Hs Hd.
  - exists w. simpl. by rewrite xorb_false_r, app_nil_r, insert_id.
  - pose proof (switch_device_ne _ _ _ _ _ Hs Hd) as Hne.
    pose proof (press_run _ _ _ _ _ Hs Hd) as Hrun.
    rewrite LightBulb_method_body in Hrun. simpl in Hrun.
    rewrite (insert_id _ _ _ Hd) in Hrun.
    set (w1 := mkWorld _ _ _) in Hrun.
    assert (heap w1 !! self = Some (Switch (mkSwitch d (negb b)))) as Hs1.
    { simpl. by rewrite lookup_insert_eq. }
    assert (heap w1 !! d = Some (Device LightBulb_obj)) as Hd1.
    { simpl. by rewrite lookup_insert_ne. }
    destruct (IH _ _ _ _ Hs1 Hd1) as (w' & Hrun' & Hh & Ho).
    exists w'. repeat split.
    + simpl. by erewrite bind_run.
    + rewrite Hh. simpl. rewrite insert_insert_eq.
      rewrite Nat.odd_succ, <- Nat.negb_odd.
      by destruct b, (Nat.odd n).
    + rewrite Ho. simpl. by rewrite <- app_assoc.
Qed.

(** X7: an even number of presses of a controller bound to a bulb gives
    back the heap exactly as it was. *)
Theorem LightBulb_press_even (w : World LightBulb) self d b k :
  heap w !! self = Some (Switch (mkSwitch d b)) →
  heap w !! d = Some (Device LightBulb_obj) →
  ∃ w', press_n (2 * k) self w = Some (tt, w') ∧ heap w' = heap w.
Proof.
  intros Hs Hd.
  destruct (LightBulb_press_n (2 * k) _ _ _ _ Hs Hd) as (w' & Hrun & Hh & _).
  exists w'. split; [done|].
  rewrite Hh, Nat.odd_mul. simpl. rewrite xorb_false_r.
  by apply insert_id.
Qed.

(** X8: [n] presses of a controller bound to a bulb write exactly [n]
    lines, alternately "turned on" and "turned off", the first one "turned
    on" exactly when the flag was [False]. *)
Theorem LightBulb_press_n_output (w : World LightBulb) self d b n :
  heap w !! self = Some (Switch (mkSwitch d b)) →
  heap w !! d = Some (Device LightBulb_obj) →
  ∃ w', press_n n self w = Some (tt, w') ∧
        stdout w' = stdout w ++ written w w' ∧
        written w w' = map LightBulb_notification (alternate b n) ∧
        length (written w w') = n.
Proof.
  intros Hs Hd.
  destruct (LightBulb_press_n n _ _ _ _ Hs Hd) as (w' & Hrun & _ & Ho).
  exists w'. rewrite (written_app _ _ _ Ho).
  by rewrite length_map, length_alternate.
Qed.

(** The further properties, at a bulb and its controllers. *)

Lemma press_frame_witness :
  heap (shared_world false true) !! 2%positive = Some (Switch (mkSwitch 1 false)) ∧
  heap (shared_world false true) !! 1%positive = Some (Device LightBulb_obj) ∧
  ∃ w', press 2 (shared_world false true) = Some (tt, w') ∧
        dom (heap w') = dom (heap (shared_world false true)) ∧
        (∀ r, r ≠ 2%positive → r ≠ 1%positive →
              heap w' !! r = heap (shared_world false true) !! r).
Proof.
  split; [reflexivity|]. split; [reflexivity|].
  apply (press_frame (shared_world false true) 2 1 false LightBulb_obj);
    reflexivity.
Defined.

Lemma press_n_trace_witness :
  heap (bulb_world true) !! 2%positive = Some (Switch (mkSwitch 1 true)) ∧
  heap (bulb_world true) !! 1%positive = Some (Device LightBulb_obj) ∧
  ∃ w', press_n 3 2 (bulb_world true) = Some (tt, w') ∧
        getattr_is_on 2 w' = Some (xorb true (Nat.odd 3), w') ∧
        getattr_device 2 w' = Some (1%positive, w') ∧
        calls w' = calls (bulb_world true) ++ made (bulb_world true) w' ∧
        press_calls (made (bulb_world true) w') = replicate 3 2%positive ∧
        calls_on 1 (made (bulb_world true) w') = alternate true 3 ∧
        length (calls_on 1 (made (bulb_world true) w')) = 3.
Proof.
  split; [reflexivity|]. split; [reflexivity|].
  apply (press_n_trace (bulb_world true) 2 1 true LightBulb_obj 3); reflexivity.
Defined.

Lemma press_n_last_call_witness :
  0 < 3 ∧
  heap (bulb_world false) !! 2%positive = Some (Switch (mkSwitch 1 false)) ∧
  heap (bulb_world false) !! 1%positive = Some (Device LightBulb_obj) ∧
  ∃ w' on, press_n 3 2 (bulb_world false) = Some (tt, w') ∧
           getattr_is_on 2 w' = Some (on, w') ∧
           last (calls_on 1 (made (bulb_world false) w'))
             = Some (if on then TurnOn else TurnOff).
Proof.
  split; [lia|]. split; [reflexivity|]. split; [reflexivity|].
  apply (press_n_last_call (bulb_world false) 2 1 false LightBulb_obj 3);
    [lia | reflexivity | reflexivity].
Defined.

Lemma press_shared_device_witness :
  2%positive ≠ 3%positive ∧
  heap (shared_world false false) !! 2%positive = Some (Switch (mkSwitch 1 false)) ∧
  heap (shared_world false false) !! 3%positive = Some (Switch (mkSwitch 1 false)) ∧
  heap (shared_world false false) !! 1%positive = Some (Device LightBulb_obj) ∧
  (∃ w1, press 2 (shared_world false false) = Some (tt, w1) ∧
         heap w1 !! 3%positive = heap (shared_world false false) !! 3%positive) ∧
  (∃ w', (let* _ := press 2 in press 3) (shared_world false false) = Some (tt, w') ∧
         heap w' !! 2%positive = Some (Switch (mkSwitch 1 (negb false))) ∧
         heap w' !! 3%positive = Some (Switch (mkSwitch 1 (negb false))) ∧
         calls_on 1 (made (shared_world false false) w')
           = [pressed_method false; pressed_method false]).
Proof.
  split; [discriminate|].
  split; [reflexivity|]. split; [reflexivity|]. split; [reflexivity|].
  apply (press_shared_device (shared_world false false) 2 3 1 false false
           LightBulb_obj); [discriminate | reflexivity | reflexivity | reflexivity].
Defined.

Lemma press_not_switchable_witness :
  heap (bulb_world false) !! 2%positive = Some (Switch (mkSwitch 1 false)) ∧
  ∃ self w1,
    ElectricPowerSwitch_init 2 None (bulb_world false) = Some (self, w1) ∧
    heap w1 !! self = Some (Switch (mkSwitch 2 (default false None))) ∧
    press self w1 = None.
Proof.
  split; [reflexivity|].
  apply (press_not_switchable (bulb_world false) 2 (mkSwitch 1 false) None).
  reflexivity.
Defined.

Lemma init_then_press_witness :
  heap (bulb_world false) !! 1%positive = Some (Device LightBulb_obj) ∧
  ∃ self w1 w2,
    ElectricPowerSwitch_init 1 (Some true) (bulb_world false) = Some (self, w1) ∧
    heap (bulb_world false) !! self = None ∧
    (∀ r, r ≠ self → heap w1 !! r = heap (bulb_world false) !! r) ∧
    stdout w1 = stdout (bulb_world false) ∧ calls w1 = calls (bulb_world false) ∧
    getattr_is_on self w1 = Some (default false (Some true), w1) ∧
    press self w1 = Some (tt, w2) ∧
    calls_on 1 (made (bulb_world false) w2)
      = [pressed_method (default false (Some true))] ∧
    getattr_is_on self w2 = Some (negb (default false (Some true)), w2).
Proof.
  split; [reflexivity|].
  apply (init_then_press (bulb_world false) 1 LightBulb_obj (Some true)).
  reflexivity.
Defined.

Lemma LightBulb_press_even_witness :
  heap (bulb_world true) !! 2%positive = Some (Switch (mkSwitch 1 true)) ∧
  heap (bulb_world true) !! 1%positive = Some (Device LightBulb_obj) ∧
  ∃ w', press_n (2 * 2) 2 (bulb_world true) = Some (tt, w') ∧
        heap w' = heap (bulb_world true).
Proof.
  split; [reflexivity|]. split; [reflexivity|].
  apply (LightBulb_press_even (bulb_world true) 2 1 true 2); reflexivity.
Defined.

Lemma LightBulb_press_n_output_witness :
  heap (bulb_world true) !! 2%positive = Some (Switch (mkSwitch 1 true)) ∧
  heap (bulb_world true) !! 1%positive = Some (Device LightBulb_obj) ∧
  ∃ w', press_n 3 2 (bulb_world true) = Some (tt, w') ∧
        stdout w' = stdout (bulb_world true) ++ written (bulb_world true) w' ∧
        written (bulb_world true) w'
          = map LightBulb_notification (alternate true 3) ∧
        length (written (bulb_world true) w') = 3.
Proof.
  split; [reflexivity|]. split; [reflexivity|].
  apply (LightBulb_press_n_output (bulb_world true) 2 1 true 3); reflexivity.
Defined.
